(** * LearnBox [backend/accounts]: token lifecycle, login and registration

    A shallow embedding of [accounts/utils.py], [accounts/serializers.py],
    [accounts/views.py] and [accounts/models.py], and the properties of the
    token lifecycle, the login errors and the registration errors.

    Conventions.
    - Instants are integers ([Z]) counting microseconds, the resolution of a
      Python [datetime]; a [timedelta] is a number of microseconds.
    - A database table is a finite map from primary keys to rows; an object
      obtained from the ORM is a pair of its primary key and its row.
    - Code that reads the clock, draws random numbers, sends mail, prints,
      raises or catches exceptions lives in the monad [Py]: a function of the
      environment of one call and of the world, to a new world and an
      outcome. *)

From Stdlib Require Import ZArith Ascii String.
From stdpp Require Import base tactics option list gmap strings fin_maps.

(** ** Python built-ins *)

Module Python.

(** The character of a decimal digit [0 <= d <= 9]. *)
Definition digit (d : Z) : ascii := ascii_of_nat (48 + Z.to_nat d).

(** Decimal digits of a non-negative integer, most significant first,
    pushed in front of [acc]. *)
Fixpoint str_digits (fuel : nat) (n : Z) (acc : string) : string :=
  match fuel with
  | O => acc
  | S fuel' =>
      let acc' := String (digit (n mod 10)) acc in
      if (n / 10 =? 0)%Z then acc' else str_digits fuel' (n / 10) acc'
  end.

(** [str(n)] for an [int]: a number has no more decimal digits than binary
    ones, which bounds the recursion. *)
Definition str (n : Z) : string :=
  if (n <? 0)%Z
  then String "-" (str_digits (S (Z.to_nat (Z.log2 (- n)))) (- n) "")
  else str_digits (S (Z.to_nat (Z.log2 n))) n "".

(** [c.isdigit()] for an ASCII character. *)
Definition isdigit (c : ascii) : bool :=
  (48 <=? nat_of_ascii c)%nat && (nat_of_ascii c <=? 57)%nat.

(** [int(s)] for a string of decimal digits. *)
Definition int (s : string) : Z :=
  fold_left (λ acc c, (acc * 10 + (Z.of_nat (nat_of_ascii c) - 48))%Z)
            (list_ascii_of_string s) 0%Z.

(** [random.randint(a, b)]: an integer N with [a <= N <= b]. The draw is
    determined by the entropy the generator consumes, here an integer. *)
Definition randint (a b entropy : Z) : Z := (a + entropy mod (b - a + 1))%Z.

(** [timedelta(hours=h, minutes=m)], in microseconds. *)
Definition timedelta (hours minutes : Z) : Z :=
  ((hours * 60 + minutes) * 60 * 1000000)%Z.

(** [s.replace(old, new)], scanning left to right; [skip] characters of a
    match that has just been replaced are still to be dropped. *)
Fixpoint replace_from (skip : nat) (old new s : string) : string :=
  match s with
  | EmptyString => EmptyString
  | String c s' =>
      match skip with
      | S skip' => replace_from skip' old new s'
      | O =>
          if String.prefix old s
          then new +:+ replace_from (String.length old - 1) old new s'
          else String c (replace_from 0 old new s')
      end
  end.

Fixpoint interleave (new s : string) : string :=
  match s with
  | EmptyString => new
  | String c s' => new +:+ String c (interleave new s')
  end.

Definition replace (s old new : string) : string :=
  match old with
  | EmptyString => interleave new s
  | _ => replace_from 0 old new s
  end.

(** ["\n".join(ls)] *)
Fixpoint join_lines (ls : list string) : string :=
  match ls with
  | [] => ""
  | [l] => l
  | l :: ls' => l +:+ String "010" (join_lines ls')
  end.

End Python.

(** ** Models *)

(** [models.User]: the columns of [AbstractUser] that [accounts] reads or
    writes, with [email] and [firebase_uid] as [models.py] declares them.
    [email_verified] is the attribute [verify_email_token] sets and saves;
    [models.py] itself declares no column of that name. *)
Module User.
Record t := mk {
  username : string;
  email : string;
  password : string;            (* the encoded password, never the raw one *)
  first_name : string;
  last_name : string;
  is_active : bool;
  firebase_uid : option string; (* null=True *)
  email_verified : bool
}.

Definition set_email_verified (b : bool) (u : t) : t :=
  mk (username u) (email u) (password u) (first_name u) (last_name u)
     (is_active u) (firebase_uid u) b.
End User.

(** Modelled from the spec: the model class [EmailVerificationToken] is not
    in [models.py]. Its columns are the ones [utils.py] names: [user], [code]
    and [expires_at] in [objects.create], [token] in [objects.get], and
    [is_used]. A token is valid iff [now < expires_at] and it is not used
    (spec, data model). *)
Module EmailVerificationToken.
Record t := mk {
  user : nat;                   (* foreign key to User *)
  code : string;
  token : string;
  expires_at : Z;
  is_used : bool
}.

Definition set_is_used (b : bool) (r : t) : t :=
  mk (user r) (code r) (token r) (expires_at r) b.

Definition valid_at (now : Z) (r : t) : bool :=
  negb (is_used r) && (now <? expires_at r)%Z.
End EmailVerificationToken.

(** Modelled from the spec: the model class [PasswordResetToken] is not in
    [models.py]. Its columns are the ones [utils.py] names: [user], [token],
    [expires_at] and [is_used]; validity as above. *)
Module PasswordResetToken.
Record t := mk {
  user : nat;                   (* foreign key to User *)
  token : string;
  expires_at : Z;
  is_used : bool
}.

Definition valid_at (now : Z) (r : t) : bool :=
  negb (is_used r) && (now <? expires_at r)%Z.
End PasswordResetToken.

(** ** The world and the monad of effects *)

Inductive model := UserModel | EmailVerificationTokenModel | PasswordResetTokenModel.

(** The detail of a [serializers.ValidationError]: a list of messages, or
    messages per field. *)
Inductive error_detail :=
| Messages (msgs : list string)
| Fields (errors : gmap string (list string)).

Inductive exn :=
| DoesNotExist (m : model)
| MultipleObjectsReturned (m : model)
| IntegrityError (constraint : string)
| KeyError (key : string)
| ValidationError (detail : error_detail)
| SMTPException (reason : string).

(** [str(e)]; the only exceptions the application prints are those of the
    mail transport. *)
Definition exn_str (e : exn) : string :=
  match e with
  | DoesNotExist UserModel => "User matching query does not exist."
  | DoesNotExist EmailVerificationTokenModel =>
      "EmailVerificationToken matching query does not exist."
  | DoesNotExist PasswordResetTokenModel =>
      "PasswordResetToken matching query does not exist."
  | MultipleObjectsReturned _ => "get() returned more than one object"
  | IntegrityError constraint => "UNIQUE constraint failed: " +:+ constraint
  | KeyError key => "'" +:+ key +:+ "'"
  | ValidationError (Messages msgs) => Python.join_lines msgs
  | ValidationError (Fields errors) =>
      Python.join_lines (concat (map_to_list errors).*2)
  | SMTPException reason => reason
  end.

Inductive outcome (A : Type) :=
| Return (a : A)
| Raise (e : exn).
Arguments Return {A} a.
Arguments Raise {A} e.

Record Mail := {
  subject : string;
  message : string;
  from_email : string;
  recipient_list : list string;
  html_message : string
}.

Record World := mkWorld {
  User_objects : gmap nat User.t;
  EmailVerificationToken_objects : gmap nat EmailVerificationToken.t;
  PasswordResetToken_objects : gmap nat PasswordResetToken.t;
  outbox : list Mail;           (* messages the mail transport accepted *)
  stdout : list string          (* lines printed, oldest first *)
}.

(** What one call finds outside the program: the clock, the entropy behind
    [random.randint], the identifier [uuid.uuid4] draws, the value the model
    gives the [token] column of a row created without one, and whether the
    mail transport fails (and with which message). *)
Record Env := {
  now : Z;
  entropy : Z;
  uuid4 : string;
  token_default : string;
  smtp_failure : option string
}.

Definition Py (A : Type) : Type := Env → World → World * outcome A.

#[global] Instance Py_ret : MRet Py := λ A a _ w, (w, Return a).

#[global] Instance Py_bind : MBind Py := λ A B f m env w,
  match m env w with
  | (w', Return a) => f a env w'
  | (w', Raise e) => (w', Raise e)
  end.

Definition raise {A} (e : exn) : Py A := λ _ w, (w, Raise e).

(** [try: body / except ...: handler]. [handler e] is [None] when no except
    clause matches [e], which then propagates. *)
Definition try_except {A} (body : Py A) (handler : exn → option (Py A)) : Py A :=
  λ env w,
    match body env w with
    | (w', Return a) => (w', Return a)
    | (w', Raise e) =>
        match handler e with
        | Some h => h env w'
        | None => (w', Raise e)
        end
    end.

Definition ask : Py Env := λ env w, (w, Return env).
Definition get_world : Py World := λ _ w, (w, Return w).
Definition put_world (w : World) : Py unit := λ _ _, (w, Return ()).

Definition timezone_now : Py Z := env ← ask; mret (now env).

Definition random_randint (a b : Z) : Py Z :=
  env ← ask; mret (Python.randint a b (entropy env)).

Definition uuid_uuid4 : Py string := env ← ask; mret (uuid4 env).

Definition set_outbox (o : list Mail) (w : World) : World :=
  mkWorld (User_objects w) (EmailVerificationToken_objects w)
          (PasswordResetToken_objects w) o (stdout w).

Definition set_stdout (o : list string) (w : World) : World :=
  mkWorld (User_objects w) (EmailVerificationToken_objects w)
          (PasswordResetToken_objects w) (outbox w) o.

Definition print (line : string) : Py unit :=
  w ← get_world; put_world (set_stdout (stdout w ++ [line]) w).

(** [send_mail(..., fail_silently=False)] *)
Definition send_mail (m : Mail) : Py unit :=
  env ← ask;
  match smtp_failure env with
  | Some reason => raise (SMTPException reason)
  | None => w ← get_world; put_world (set_outbox (outbox w ++ [m]) w)
  end.

(** ** The ORM *)

Section Manager.
Context {A : Type}.

(** [objects.filter(...)]: the rows a predicate selects. *)
Definition objects_filter (P : A → bool) (table : gmap nat A) : gmap nat A :=
  filter (λ kv, P kv.2 = true) table.

(** [queryset.exists()] *)
Definition qs_exists (qs : gmap nat A) : bool :=
  match map_to_list qs with [] => false | _ => true end.

(** [objects.get(...)]: the one row selected, or [DoesNotExist], or
    [MultipleObjectsReturned]. *)
Definition objects_get (m : model) (P : A → bool) (table : gmap nat A)
  : outcome (nat * A) :=
  match map_to_list (objects_filter P table) with
  | [] => Raise (DoesNotExist m)
  | [obj] => Return obj
  | _ => Raise (MultipleObjectsReturned m)
  end.

(** The primary key of a new row. *)
Definition next_pk (table : gmap nat A) : nat := fresh (dom table).

End Manager.

Definition set_User_objects (t : gmap nat User.t) (w : World) : World :=
  mkWorld t (EmailVerificationToken_objects w) (PasswordResetToken_objects w)
          (outbox w) (stdout w).

Definition set_EmailVerificationToken_objects
  (t : gmap nat EmailVerificationToken.t) (w : World) : World :=
  mkWorld (User_objects w) t (PasswordResetToken_objects w) (outbox w) (stdout w).

Definition set_PasswordResetToken_objects
  (t : gmap nat PasswordResetToken.t) (w : World) : World :=
  mkWorld (User_objects w) (EmailVerificationToken_objects w) t (outbox w) (stdout w).

(** [EmailVerificationToken.objects.create(user=, code=, expires_at=)]: the
    columns not given take the model's defaults. *)
Definition EmailVerificationToken_objects_create
  (user : nat) (code : string) (expires_at : Z)
  : Py (nat * EmailVerificationToken.t) :=
  env ← ask;
  w ← get_world;
  let pk := next_pk (EmailVerificationToken_objects w) in
  let row := EmailVerificationToken.mk user code (token_default env) expires_at false in
  put_world (set_EmailVerificationToken_objects
               (<[pk := row]> (EmailVerificationToken_objects w)) w);;
  mret (pk, row).

(** [PasswordResetToken.objects.create(user=, token=, expires_at=)] *)
Definition PasswordResetToken_objects_create
  (user : nat) (token : string) (expires_at : Z)
  : Py (nat * PasswordResetToken.t) :=
  w ← get_world;
  let pk := next_pk (PasswordResetToken_objects w) in
  let row := PasswordResetToken.mk user token expires_at false in
  put_world (set_PasswordResetToken_objects
               (<[pk := row]> (PasswordResetToken_objects w)) w);;
  mret (pk, row).

(** A query is answered from the world and leaves it as it is. *)
Definition query {A} (q : World → outcome A) : Py A := λ _ w, (w, q w).

(** [EmailVerificationToken.objects.get(token=token)] *)
Definition EmailVerificationToken_lookup (token : string) (w : World)
  : outcome (nat * EmailVerificationToken.t) :=
  objects_get EmailVerificationTokenModel
    (λ r, String.eqb (EmailVerificationToken.token r) token)
    (EmailVerificationToken_objects w).

Definition EmailVerificationToken_objects_get (token : string)
  : Py (nat * EmailVerificationToken.t) :=
  query (EmailVerificationToken_lookup token).

(** [PasswordResetToken.objects.get(token=token)] *)
Definition PasswordResetToken_lookup (token : string) (w : World)
  : outcome (nat * PasswordResetToken.t) :=
  objects_get PasswordResetTokenModel
    (λ r, String.eqb (PasswordResetToken.token r) token)
    (PasswordResetToken_objects w).

Definition PasswordResetToken_objects_get (token : string)
  : Py (nat * PasswordResetToken.t) :=
  query (PasswordResetToken_lookup token).

(** [User.objects.get(email=email)] and the lookup by name of the
    authentication backend. *)
Definition User_lookup_email (email : string) (w : World) : outcome (nat * User.t) :=
  objects_get UserModel (λ u, String.eqb (User.email u) email) (User_objects w).

Definition User_lookup_username (username : string) (w : World)
  : outcome (nat * User.t) :=
  objects_get UserModel (λ u, String.eqb (User.username u) username) (User_objects w).

(** [User.objects.filter(email=value).exists()] *)
Definition User_email_exists (value : string) (w : World) : bool :=
  qs_exists (objects_filter (λ u, String.eqb (User.email u) value) (User_objects w)).

(** [obj.save()] of an object that came from the table: its row is written
    at its primary key. *)
Definition EmailVerificationToken_save (obj : nat * EmailVerificationToken.t)
  : Py unit :=
  w ← get_world;
  put_world (set_EmailVerificationToken_objects
               (<[obj.1 := obj.2]> (EmailVerificationToken_objects w)) w).

Definition User_save (obj : nat * User.t) : Py unit :=
  w ← get_world;
  put_world (set_User_objects (<[obj.1 := obj.2]> (User_objects w)) w).

(** [verification_token.user]: the row the foreign key points to. *)
Definition related_user (pk : nat) : Py (nat * User.t) :=
  w ← get_world;
  match User_objects w !! pk with
  | Some u => mret (pk, u)
  | None => raise (DoesNotExist UserModel)
  end.

(** [token.is_valid()], which reads the clock. *)
Definition EmailVerificationToken_is_valid (r : EmailVerificationToken.t) : Py bool :=
  t ← timezone_now; mret (EmailVerificationToken.valid_at t r).

Definition PasswordResetToken_is_valid (r : PasswordResetToken.t) : Py bool :=
  t ← timezone_now; mret (PasswordResetToken.valid_at t r).

(** ** The framework around the application

    Settings and the pluggable parts of Django and of the REST framework the
    application calls: the password hasher, the password-strength policy,
    the normalisation of e-mail addresses and the signing of session
    tokens. *)
Class Django := {
  DEFAULT_FROM_EMAIL : string;
  FRONTEND_URL : option string;
  make_password : string → string;
  check_password : string → string → bool;   (* raw, encoded *)
  validate_password : string → list string;  (* the complaints; none: accepted *)
  normalize_email : string → string;
  RefreshToken_for_user : nat * User.t → string * string  (* refresh, access *)
}.

(** An HTTP request, as far as [utils.py] looks at it. *)
Record Request := { build_absolute_uri : string → string }.

(** ** [accounts/utils.py] *)

Module utils.
Section utils.
Context `{Django}.

Definition dq : string := String "034" "".

Definition verification_message (username code : string) : string :=
  Python.join_lines [
    "";
    "    Hi " +:+ username +:+ ",";
    "    ";
    "    Thank you for registering with LearnBox!";
    "    ";
    "    Your email verification code is: " +:+ code;
    "    ";
    "    This code will expire in 15 minutes.";
    "    ";
    "    If you didn't create an account, please ignore this email.";
    "    ";
    "    Best regards,";
    "    LearnBox Team";
    "    " ].

Definition verification_html_message (username code : string) : string :=
  Python.join_lines [
    "";
    "    <html>";
    "        <body>";
    "            <h2>Hi " +:+ username +:+ ",</h2>";
    "            <p>Thank you for registering with LearnBox!</p>";
    "            <p>Your email verification code is:</p>";
    "            <div style=" +:+ dq
      +:+ "background-color: #f0f0f0; padding: 20px; text-align: center; ";
    "                        font-size: 32px; font-weight: bold; letter-spacing: 8px; ";
    "                        border-radius: 8px; margin: 20px 0;" +:+ dq +:+ ">";
    "                " +:+ code;
    "            </div>";
    "            <p><small>This code will expire in 15 minutes.</small></p>";
    "            <p>If you didn't create an account, please ignore this email.</p>";
    "            <br>";
    "            <p>Best regards,<br>LearnBox Team</p>";
    "        </body>";
    "    </html>";
    "    " ].

(** [send_verification_email(user, request=None)] *)
Definition send_verification_email
  (user : nat * User.t) (request : option Request)
  : Py (nat * EmailVerificationToken.t) :=
  (* Generate random 6-digit code *)
  n ← random_randint 100000 999999;
  let code := Python.str n in
  (* Create EmailVerificationToken *)
  t ← timezone_now;
  verification_token ←
    EmailVerificationToken_objects_create
      user.1 code (t + Python.timedelta 0 15)%Z;
  (* Email subject and message *)
  let subject := "Your Verification Code - LearnBox" in
  let message := verification_message (User.username user.2) code in
  let html_message := verification_html_message (User.username user.2) code in
  (* Send email *)
  try_except
    (send_mail {| subject := subject;
                  message := message;
                  from_email := DEFAULT_FROM_EMAIL;
                  recipient_list := [User.email user.2];
                  html_message := html_message |})
    (λ e, Some (print ("Error sending verification email: " +:+ exn_str e);;
                raise e));;
  mret verification_token.

Definition password_reset_message (username reset_link : string) : string :=
  Python.join_lines [
    "";
    "    Hi " +:+ username +:+ ",";
    "    ";
    "    We received a request to reset your password for your LearnBox account.";
    "    ";
    "    Please click the link below to reset your password:";
    "    " +:+ reset_link;
    "    ";
    "    This link will expire in 1 hour.";
    "    ";
    "    If you didn't request a password reset, please ignore this email or contact support if you have concerns.";
    "    ";
    "    Best regards,";
    "    LearnBox Team";
    "    " ].

Definition password_reset_html_message (username reset_link : string) : string :=
  Python.join_lines [
    "";
    "    <html>";
    "        <body>";
    "            <h2>Hi " +:+ username +:+ ",</h2>";
    "            <p>We received a request to reset your password for your LearnBox account.</p>";
    "            <p>Please click the button below to reset your password:</p>";
    "            <p>";
    "                <a href=" +:+ dq +:+ reset_link +:+ dq +:+ " ";
    "                   style=" +:+ dq
      +:+ "background-color: #2196F3; color: white; padding: 14px 20px; ";
    "                          text-decoration: none; border-radius: 4px; display: inline-block;"
      +:+ dq +:+ ">";
    "                    Reset Password";
    "                </a>";
    "            </p>";
    "            <p>Or copy and paste this link in your browser:</p>";
    "            <p>" +:+ reset_link +:+ "</p>";
    "            <p><small>This link will expire in 1 hour.</small></p>";
    "            <p>If you didn't request a password reset, please ignore this email or contact support if you have concerns.</p>";
    "            <br>";
    "            <p>Best regards,<br>LearnBox Team</p>";
    "        </body>";
    "    </html>";
    "    " ].

(** [send_password_reset_email(user, request=None)] *)
Definition send_password_reset_email
  (user : nat * User.t) (request : option Request)
  : Py (nat * PasswordResetToken.t) :=
  (* Generate unique token *)
  token ← uuid_uuid4;
  (* Create PasswordResetToken *)
  t ← timezone_now;
  reset_token ←
    PasswordResetToken_objects_create user.1 token (t + Python.timedelta 1 0)%Z;
  (* Build reset link *)
  let reset_link :=
    match request with
    | Some request =>
        let frontend_url :=
          Python.replace (build_absolute_uri request "/") "/api/" "" in
        frontend_url +:+ "reset-password?token=" +:+ token
    | None =>
        let frontend_url := default "http://localhost:5173" FRONTEND_URL in
        frontend_url +:+ "/reset-password?token=" +:+ token
    end in
  (* Email subject and message *)
  let subject := "Password Reset Request - LearnBox" in
  let message := password_reset_message (User.username user.2) reset_link in
  let html_message := password_reset_html_message (User.username user.2) reset_link in
  (* Send email *)
  try_except
    (send_mail {| subject := subject;
                  message := message;
                  from_email := DEFAULT_FROM_EMAIL;
                  recipient_list := [User.email user.2];
                  html_message := html_message |})
    (λ e, Some (print ("Error sending password reset email: " +:+ exn_str e);;
                raise e));;
  mret reset_token.

(** [verify_email_token(token)]: the tuple (success, message, user). *)
Definition verify_email_token (token : string)
  : Py (bool * string * option (nat * User.t)) :=
  try_except
    (verification_token ← EmailVerificationToken_objects_get token;
     valid ← EmailVerificationToken_is_valid verification_token.2;
     if negb valid then
       if EmailVerificationToken.is_used verification_token.2
       then mret (false, "This verification link has already been used.", None)
       else mret (false, "This verification link has expired.", None)
     else
       (* Mark token as used *)
       let verification_token :=
         (verification_token.1,
          EmailVerificationToken.set_is_used true verification_token.2) in
       EmailVerificationToken_save verification_token;;
       (* Mark user as verified *)
       user ← related_user (EmailVerificationToken.user verification_token.2);
       let user := (user.1, User.set_email_verified true user.2) in
       User_save user;;
       mret (true, "Email verified successfully!", Some user))
    (λ e, match e with
          | DoesNotExist EmailVerificationTokenModel =>
              Some (mret (false, "Invalid verification token.", None))
          | _ => None
          end).

(** [verify_password_reset_token(token)]: the tuple
    (success, message, reset_token). *)
Definition verify_password_reset_token (token : string)
  : Py (bool * string * option (nat * PasswordResetToken.t)) :=
  try_except
    (reset_token ← PasswordResetToken_objects_get token;
     valid ← PasswordResetToken_is_valid reset_token.2;
     if negb valid then
       if PasswordResetToken.is_used reset_token.2
       then mret (false, "This password reset link has already been used.", None)
       else mret (false, "This password reset link has expired.", None)
     else
       mret (true, "Token is valid.", Some reset_token))
    (λ e, match e with
          | DoesNotExist PasswordResetTokenModel =>
              Some (mret (false, "Invalid password reset token.", None))
          | _ => None
          end).

End utils.
End utils.

(** ** The REST framework: serializers

    Of a serializer the embedding keeps what [serializers.py] declares: the
    fields in their order, which of them are required, their [validators],
    the [validate_<field>] methods and the object-level [validate]. *)

Module serializers.

Record Field := {
  field_name : string;
  required : bool;
  validators : list (string → list string);
  validate_method : option (string → Py string)   (* validate_<field_name> *)
}.

Inductive field_result :=
| Skipped
| Valid (value : string)
| Invalid (msgs : list string).

Definition detail_messages (d : error_detail) : list string :=
  match d with
  | Messages msgs => msgs
  | Fields errors => concat (map_to_list errors).*2
  end.

(** One field of [to_internal_value]: the value is taken from the data; a
    value that passes the field's validators goes through the serializer's
    [validate_<field>] method, when there is one. *)
Definition run_field (f : Field) (data : gmap string string) : Py field_result :=
  match data !! field_name f with
  | None =>
      mret (if required f then Invalid ["This field is required."] else Skipped)
  | Some value =>
      match concat ((λ validator, validator value) <$> validators f) with
      | [] =>
          match validate_method f with
          | None => mret (Valid value)
          | Some method =>
              try_except
                (value' ← method value; mret (Valid value'))
                (λ e, match e with
                      | ValidationError d => Some (mret (Invalid (detail_messages d)))
                      | _ => None
                      end)
          end
      | msgs => mret (Invalid msgs)
      end
  end.

(** [Serializer.to_internal_value]: every field is run, the errors of all
    fields are collected, and any error makes it raise. *)
Fixpoint to_internal_value (fields : list Field) (data : gmap string string)
  (ret : gmap string string) (errors : gmap string (list string))
  : Py (gmap string string) :=
  match fields with
  | [] =>
      if decide (errors = ∅) then mret ret
      else raise (ValidationError (Fields errors))
  | f :: fields' =>
      r ← run_field f data;
      match r with
      | Skipped => to_internal_value fields' data ret errors
      | Valid value =>
          to_internal_value fields' data (<[field_name f := value]> ret) errors
      | Invalid msgs =>
          to_internal_value fields' data ret (<[field_name f := msgs]> errors)
      end
  end.

Record Serializer (V : Type) := mkSerializer {
  fields : list Field;
  validate : gmap string string → Py V
}.
Arguments mkSerializer {V} _ _.
Arguments fields {V} _.
Arguments validate {V} _ _.

(** [Serializer.run_validation]: the object-level [validate] runs on the
    outcome of the fields, and only when no field failed. *)
Definition run_validation {V} (s : Serializer V) (data : gmap string string) : Py V :=
  value ← to_internal_value (fields s) data ∅ ∅;
  validate s value.

Definition as_serializer_error (d : error_detail) : gmap string (list string) :=
  match d with
  | Fields errors => errors
  | Messages msgs => {[ "non_field_errors" := msgs ]}
  end.

(** [serializer.is_valid()]: [inr validated_data] when it answers [True],
    [inl errors] when it answers [False]. *)
Definition is_valid {V} (s : Serializer V) (data : gmap string string)
  : Py (gmap string (list string) + V) :=
  try_except
    (validated_data ← run_validation s data; mret (inr validated_data))
    (λ e, match e with
          | ValidationError d => Some (mret (inl (as_serializer_error d)))
          | _ => None
          end).

(** [d[key]] *)
Definition getitem (d : gmap string string) (key : string) : Py string :=
  match d !! key with
  | Some v => mret v
  | None => raise (KeyError key)
  end.

Section auth.
Context `{Django}.

(** [User.objects.create_user(...)]: the address is normalised, the password
    hashed, and the row inserted unless a unique column forbids it. *)
Definition User_objects_create_user
  (username email password first_name last_name : string)
  (firebase_uid : option string) : Py (nat * User.t) :=
  w ← get_world;
  let email := normalize_email email in
  let row := User.mk username email (make_password password)
                     first_name last_name true firebase_uid false in
  let taken {B} (column : User.t → B) (same : B → bool) :=
    qs_exists (objects_filter (λ u, same (column u)) (User_objects w)) in
  if taken User.username (String.eqb username)
  then raise (IntegrityError "accounts_user.username")
  else if taken User.email (String.eqb email)
  then raise (IntegrityError "accounts_user.email")
  else if match firebase_uid with
          | Some uid =>
              taken User.firebase_uid
                    (λ c, match c with Some uid' => String.eqb uid uid' | None => false end)
          | None => false
          end
  then raise (IntegrityError "accounts_user.firebase_uid")
  else
    let pk := next_pk (User_objects w) in
    put_world (set_User_objects (<[pk := row]> (User_objects w)) w);;
    mret (pk, row).

(** [django.contrib.auth.authenticate(username=, password=)] with the model
    backend: the user of that name, if the password matches its encoded
    password and the account may log in. *)
Definition authenticate (username password : string) : Py (option (nat * User.t)) :=
  try_except
    (user ← query (User_lookup_username username);
     if check_password password (User.password user.2) && User.is_active user.2
     then mret (Some user) else mret None)
    (λ e, match e with
          | DoesNotExist UserModel => Some (mret None)
          | _ => None
          end).

End auth.

(** A value is true in a condition when it is there and not empty. *)
Definition truthy (v : option string) : bool :=
  match v with
  | Some (String _ _) => true
  | _ => false
  end.

(** *** [UserRegistrationSerializer] *)
Module UserRegistrationSerializer.
Section UserRegistrationSerializer.
Context `{Django}.

(** Validate that passwords match *)
Definition validate (attrs : gmap string string) : Py (gmap string string) :=
  password ← getitem attrs "password";
  password2 ← getitem attrs "password2";
  if negb (String.eqb password password2) then
    raise (ValidationError
             (Fields {[ "password" := ["Password fields didn't match."] ]}))
  else mret attrs.

(** Validate that email is unique *)
Definition validate_email (value : string) : Py string :=
  w ← get_world;
  if User_email_exists value w
  then raise (ValidationError (Messages ["A user with this email already exists."]))
  else mret value.

(** The fields of [Meta.fields], in order. [username] is required by the
    model; the three serializer fields are declared in the class. *)
Definition declared_fields : list Field := [
  {| field_name := "username"; required := true;
     validators := []; validate_method := None |};
  {| field_name := "email"; required := true;
     validators := []; validate_method := Some validate_email |};
  {| field_name := "password"; required := true;
     validators := [validate_password]; validate_method := None |};
  {| field_name := "password2"; required := true;
     validators := []; validate_method := None |};
  {| field_name := "first_name"; required := false;
     validators := []; validate_method := None |};
  {| field_name := "last_name"; required := false;
     validators := []; validate_method := None |};
  {| field_name := "firebase_uid"; required := false;
     validators := []; validate_method := None |} ].

Definition serializer : Serializer (gmap string string) :=
  mkSerializer declared_fields validate.

(** Create user with Firebase UID *)
Definition create (validated_data : gmap string string) : Py (nat * User.t) :=
  _ ← getitem validated_data "password2";
  let validated_data := delete "password2" validated_data in
  let firebase_uid := validated_data !! "firebase_uid" in
  let validated_data := delete "firebase_uid" validated_data in
  username ← getitem validated_data "username";
  email ← getitem validated_data "email";
  password ← getitem validated_data "password";
  User_objects_create_user
    username email password
    (default "" (validated_data !! "first_name"))
    (default "" (validated_data !! "last_name"))
    firebase_uid.

End UserRegistrationSerializer.
End UserRegistrationSerializer.

(** *** [LoginSerializer] *)
Module LoginSerializer.
Section LoginSerializer.
Context `{Django}.

Definition invalid (msg : string) : exn :=
  ValidationError (Fields {[ "error" := [msg] ]}).

(** Validate email and password. The result stands for [attrs] with the
    user stored under ['user']. *)
Definition validate (attrs : gmap string string)
  : Py (gmap string string * (nat * User.t)) :=
  let email := attrs !! "email" in
  let password := attrs !! "password" in
  if truthy email && truthy password then
    (* Get user by email *)
    user ← try_except
             (query (User_lookup_email (default "" email)))
             (λ e, match e with
                   | DoesNotExist UserModel =>
                       Some (raise (invalid "Invalid email or password."))
                   | _ => None
                   end);
    (* Authenticate with username *)
    user ← authenticate (User.username user.2) (default "" password);
    match user with
    | None => raise (invalid "Invalid email or password.")
    | Some user =>
        if negb (User.is_active user.2)
        then raise (invalid "User account is disabled.")
        else mret (attrs, user)
    end
  else
    raise (invalid ("Must include " +:+ String "034" "email"
                    +:+ String "034" " and " +:+ String "034" "password"
                    +:+ String "034" "."))%string.

Definition declared_fields : list Field := [
  {| field_name := "email"; required := true;
     validators := []; validate_method := None |};
  {| field_name := "password"; required := true;
     validators := []; validate_method := None |} ].

Definition serializer : Serializer (gmap string string * (nat * User.t)) :=
  mkSerializer declared_fields validate.

End LoginSerializer.
End LoginSerializer.

End serializers.

(** ** [accounts/views.py] *)

Module views.
Section views.
Context `{Django}.

Record UserSummary := {
  id : nat;
  username : string;
  email : string;
  firebase_uid : option string;
  names : option (string * string)   (* first_name, last_name: login only *)
}.

Inductive Body :=
| Success (message : string) (refresh access : string) (user : UserSummary)
| Errors (errors : gmap string (list string)).

Record Response := { data : Body; status : nat }.

Definition HTTP_200_OK : nat := 200.
Definition HTTP_201_CREATED : nat := 201.
Definition HTTP_400_BAD_REQUEST : nat := 400.

(** [RegisterView.post] *)
Definition RegisterView_post (request_data : gmap string string) : Py Response :=
  valid ← serializers.is_valid
            serializers.UserRegistrationSerializer.serializer request_data;
  match valid with
  | inr validated_data =>
      user ← serializers.UserRegistrationSerializer.create validated_data;
      (* Generate JWT tokens *)
      let refresh := RefreshToken_for_user user in
      mret {| data :=
                Success "Registration successful! Firebase will send verification email."
                        refresh.1 refresh.2
                        {| id := user.1;
                           username := User.username user.2;
                           email := User.email user.2;
                           firebase_uid := User.firebase_uid user.2;
                           names := None |};
              status := HTTP_201_CREATED |}
  | inl errors => mret {| data := Errors errors; status := HTTP_400_BAD_REQUEST |}
  end.

(** [LoginView.post] *)
Definition LoginView_post (request_data : gmap string string) : Py Response :=
  valid ← serializers.is_valid serializers.LoginSerializer.serializer request_data;
  match valid with
  | inr validated_data =>
      let user := validated_data.2 in
      (* Generate JWT tokens *)
      let refresh := RefreshToken_for_user user in
      mret {| data :=
                Success "Login successful!" refresh.1 refresh.2
                        {| id := user.1;
                           username := User.username user.2;
                           email := User.email user.2;
                           firebase_uid := User.firebase_uid user.2;
                           names := Some (User.first_name user.2, User.last_name user.2) |};
              status := HTTP_200_OK |}
  | inl errors => mret {| data := Errors errors; status := HTTP_400_BAD_REQUEST |}
  end.

End views.
End views.

(** ** Vocabulary of the properties *)

Import serializers.

(** The code [send_verification_email] generates in an environment, and the
    rows the two issuing functions create. *)
Definition issued_code (env : Env) : string :=
  Python.str (Python.randint 100000 999999 (entropy env)).

Definition issued_email_row (user : nat * User.t) (env : Env)
  : EmailVerificationToken.t :=
  EmailVerificationToken.mk user.1 (issued_code env) (token_default env)
                            (now env + Python.timedelta 0 15) false.

Definition issued_reset_row (user : nat * User.t) (env : Env)
  : PasswordResetToken.t :=
  PasswordResetToken.mk user.1 (uuid4 env) (now env + Python.timedelta 1 0) false.

(** The outcome of the fields of a serializer, apart from the world: what
    [to_internal_value] makes of the results of its fields. *)
Fixpoint collect (results : list (string * field_result))
  (ret : gmap string string) (errors : gmap string (list string))
  : outcome (gmap string string) :=
  match results with
  | [] =>
      if decide (errors = ∅) then Return ret
      else Raise (ValidationError (Fields errors))
  | (name, Skipped) :: results' => collect results' ret errors
  | (name, Valid value) :: results' => collect results' (<[name := value]> ret) errors
  | (name, Invalid msgs) :: results' => collect results' ret (<[name := msgs]> errors)
  end.

(** The result of one field, and of the fields of a serializer in order. *)
Definition field_outcome (f : Field) (data : gmap string string)
  (env : Env) (w : World) : field_result :=
  match (run_field f data env w).2 with
  | Return r => r
  | Raise _ => Skipped
  end.

Definition field_outcomes (fields : list Field) (data : gmap string string)
  (env : Env) (w : World) : list (string * field_result) :=
  (λ f, (field_name f, field_outcome f data env w)) <$> fields.

(** A field that returns its result and leaves the world as it is. *)
Definition read_only (f : Field) (data : gmap string string)
  (env : Env) (w : World) : Prop :=
  run_field f data env w = (w, Return (field_outcome f data env w)).

(** The response 400 that carries the errors of a serializer. *)
Definition bad_request (errors : gmap string (list string)) : views.Response :=
  {| views.data := views.Errors errors; views.status := views.HTTP_400_BAD_REQUEST |}.

(** The one answer to a login that fails on its credentials. *)
Definition invalid_credentials : views.Response :=
  bad_request {[ "error" := ["Invalid email or password."] ]}.

(** A column declared [unique=True] holds no value twice. *)
Definition unique_column {A B} `{EqDecision B} (column : A → B)
  (table : gmap nat A) : bool :=
  bool_decide (NoDup (column <$> (map_to_list table).*2)).

(** ** Sample data *)

Module Example.

Definition django : Django := {|
  DEFAULT_FROM_EMAIL := "noreply@learnbox.test";
  FRONTEND_URL := None;
  make_password := λ raw, "hash$" +:+ raw;
  check_password := λ raw encoded, String.eqb ("hash$" +:+ raw) encoded;
  validate_password :=
    λ raw, if (String.length raw <? 8)%nat
           then ["This password is too short. It must contain at least 8 characters."]
           else [];
  normalize_email := λ address, address;
  RefreshToken_for_user := λ user, ("refresh." +:+ User.username user.2,
                                    "access." +:+ User.username user.2)
|}.

Definition alice : User.t :=
  User.mk "alice" "alice@example.com" "hash$wonderland1" "Alice" "" true None false.

Definition bob : User.t :=
  User.mk "bob" "bob@example.com" "hash$builder123" "Bob" "" true None false.

(** Two accounts and no token. *)
Definition world0 : World := mkWorld {[ 1%nat := alice; 2%nat := bob ]} ∅ ∅ [] [].

(** An unused e-mail verification token and an unused password-reset token
    of alice, both expiring at instant 1000. *)
Definition email_row : EmailVerificationToken.t :=
  EmailVerificationToken.mk 1 "482913" "tok-e" 1000 false.

Definition reset_row : PasswordResetToken.t :=
  PasswordResetToken.mk 1 "tok-r" 1000 false.

Definition world1 : World :=
  mkWorld {[ 1%nat := alice; 2%nat := bob ]}
          {[ 7%nat := email_row ]} {[ 3%nat := reset_row ]} [] [].

(** The same tokens, used. *)
Definition world2 : World :=
  mkWorld {[ 1%nat := alice; 2%nat := bob ]}
          {[ 7%nat := EmailVerificationToken.set_is_used true email_row ]}
          {[ 3%nat := PasswordResetToken.mk 1 "tok-r" 1000 true ]} [] [].

(** A call at instant [t] with a working mail transport. The entropy makes
    [random.randint(100000, 999999)] draw 482913. *)
Definition at_ (t : Z) : Env :=
  {| now := t; entropy := 382913; uuid4 := "6f1c2a9e-8d0b-4c5e-9a7b-3e2f1d0c4b5a";
     token_default := ""; smtp_failure := None |}.

(** The same with a mail transport that refuses the message. *)
Definition mail_down (t : Z) : Env :=
  {| now := t; entropy := 382913; uuid4 := "6f1c2a9e-8d0b-4c5e-9a7b-3e2f1d0c4b5a";
     token_default := ""; smtp_failure := Some "Connection refused" |}.

(** Request bodies. *)
Definition registration (username email password password2 : string)
  : gmap string string :=
  {[ "username" := username; "email" := email;
     "password" := password; "password2" := password2 ]}.

Definition credentials (email password : string) : gmap string string :=
  {[ "email" := email; "password" := password ]}.

End Example.

(** * Properties *)

(** ** Decimal strings *)

Local Ltac div_lia := Z.div_mod_to_equations; lia.

Lemma str_digits_S fuel n acc :
  Python.str_digits (S fuel) n acc =
  if (n / 10 =? 0)%Z then String (Python.digit (n mod 10)) acc
  else Python.str_digits fuel (n / 10) (String (Python.digit (n mod 10)) acc).
Proof. reflexivity. Qed.

(** A number of six digits is printed as its six digits. *)
Lemma str_six_digits n :
  (100000 ≤ n ≤ 999999)%Z →
  Python.str n =
  String (Python.digit (n / 100000 mod 10))
 (String (Python.digit (n / 10000 mod 10))
 (String (Python.digit (n / 1000 mod 10))
 (String (Python.digit (n / 100 mod 10))
 (String (Python.digit (n / 10 mod 10))
 (String (Python.digit (n mod 10)) ""))))).
Proof.
  intros Hn. unfold Python.str.
  destruct (Z.ltb_spec n 0) as [?|_]; [lia|].
  assert (16 ≤ Z.log2 n)%Z as Hlog.
  { apply Z.log2_le_pow2; [lia|]. change (2 ^ 16)%Z with 65536%Z. lia. }
  destruct (Z.to_nat (Z.log2 n)) as [|[|[|[|[|fuel]]]]] eqn:Hfuel; try lia.
  replace (n / 100)%Z with (n / 10 / 10)%Z by (rewrite Z.div_div by lia; done).
  replace (n / 1000)%Z with (n / 10 / 10 / 10)%Z
    by (rewrite !Z.div_div by lia; done).
  replace (n / 10000)%Z with (n / 10 / 10 / 10 / 10)%Z
    by (rewrite !Z.div_div by lia; done).
  replace (n / 100000)%Z with (n / 10 / 10 / 10 / 10 / 10)%Z
    by (rewrite !Z.div_div by lia; done).
  set (n1 := (n / 10)%Z). set (n2 := (n1 / 10)%Z). set (n3 := (n2 / 10)%Z).
  set (n4 := (n3 / 10)%Z). set (n5 := (n4 / 10)%Z).
  assert (10000 ≤ n1 ≤ 99999)%Z by (subst n1; div_lia).
  assert (1000 ≤ n2 ≤ 9999)%Z by (subst n2; div_lia).
  assert (100 ≤ n3 ≤ 999)%Z by (subst n3; div_lia).
  assert (10 ≤ n4 ≤ 99)%Z by (subst n4; div_lia).
  assert (1 ≤ n5 ≤ 9)%Z by (subst n5; div_lia).
  rewrite str_digits_S. fold n1. destruct (Z.eqb_spec n1 0); [lia|].
  rewrite str_digits_S. fold n2. destruct (Z.eqb_spec n2 0); [lia|].
  rewrite str_digits_S. fold n3. destruct (Z.eqb_spec n3 0); [lia|].
  rewrite str_digits_S. fold n4. destruct (Z.eqb_spec n4 0); [lia|].
  rewrite str_digits_S. fold n5. destruct (Z.eqb_spec n5 0); [lia|].
  rewrite str_digits_S. destruct (Z.eqb_spec (n5 / 10) 0); [|div_lia].
  done.
Qed.

Lemma isdigit_digit d : (0 ≤ d ≤ 9)%Z → Python.isdigit (Python.digit d) = true.
Proof.
  intros Hd. unfold Python.isdigit, Python.digit.
  rewrite nat_ascii_embedding by lia.
  apply andb_true_intro; split; apply Nat.leb_le; lia.
Qed.

Lemma digit_value d :
  (0 ≤ d ≤ 9)%Z → (Z.of_nat (nat_of_ascii (Python.digit d)) - 48 = d)%Z.
Proof.
  intros Hd. unfold Python.digit. rewrite nat_ascii_embedding by lia. lia.
Qed.

Lemma randint_range a b entropy :
  (a ≤ b)%Z → (a ≤ Python.randint a b entropy ≤ b)%Z.
Proof. intros Hab. unfold Python.randint. div_lia. Qed.

(** Every number of the range can be drawn. *)
Lemma randint_onto a b n :
  (a ≤ n ≤ b)%Z → Python.randint a b (n - a) = n.
Proof.
  intros Hn. unfold Python.randint. rewrite Z.mod_small by lia. lia.
Qed.

Lemma str_six_digits_spec n :
  (100000 ≤ n ≤ 999999)%Z →
  String.length (Python.str n) = 6%nat ∧
  forallb Python.isdigit (list_ascii_of_string (Python.str n)) = true ∧
  Python.int (Python.str n) = n.
Proof.
  intros Hn. rewrite str_six_digits by done. split; [done|]. split.
  - cbn [list_ascii_of_string forallb].
    rewrite !isdigit_digit; [done|div_lia..].
  - unfold Python.int. cbn [list_ascii_of_string fold_left].
    rewrite !digit_value by div_lia. div_lia.
Qed.

(** ** The ORM *)

Section Manager_facts.
Context {A : Type}.
Implicit Types (P : A → bool) (table : gmap nat A).

Lemma objects_get_Return m P table obj :
  objects_get m P table = Return obj ↔ objects_filter P table = {[obj.1 := obj.2]}.
Proof.
  unfold objects_get. split.
  - intros Hget.
    rewrite <- (list_to_map_to_list (objects_filter P table)).
    destruct (map_to_list (objects_filter P table)) as [|obj' [|??]]; simplify_eq.
    destruct obj; cbn. by rewrite insert_empty.
  - intros ->. rewrite map_to_list_singleton. by destruct obj.
Qed.

Lemma objects_get_DoesNotExist m P table :
  objects_get m P table = Raise (DoesNotExist m) ↔ objects_filter P table = ∅.
Proof.
  unfold objects_get. split.
  - intros Hget. apply map_to_list_empty_iff.
    by destruct (map_to_list (objects_filter P table)) as [|obj' [|??]].
  - intros ->. by rewrite map_to_list_empty.
Qed.

Lemma objects_get_cases m P table :
  objects_get m P table = Raise (DoesNotExist m) ∨
  (∃ obj, objects_get m P table = Return obj) ∨
  objects_get m P table = Raise (MultipleObjectsReturned m).
Proof.
  unfold objects_get.
  destruct (map_to_list (objects_filter P table)) as [|obj' [|??]]; eauto.
Qed.

Lemma objects_get_lookup m P table obj :
  objects_get m P table = Return obj →
  table !! obj.1 = Some obj.2 ∧ P obj.2 = true.
Proof.
  intros Hget%objects_get_Return.
  assert (objects_filter P table !! obj.1 = Some obj.2) as Hl
    by (rewrite Hget; apply lookup_singleton_eq).
  unfold objects_filter in Hl. by apply map_lookup_filter_Some in Hl.
Qed.

(** Saving a row that the query still selects leaves it the one selected. *)
Lemma objects_get_save m P table obj row :
  objects_get m P table = Return obj → P row = true →
  objects_get m P (<[obj.1 := row]> table) = Return (obj.1, row).
Proof.
  intros Hget%objects_get_Return Hrow. apply objects_get_Return; cbn.
  unfold objects_filter in *.
  rewrite map_filter_insert_True by done.
  rewrite Hget, insert_singleton_eq. by rewrite insert_empty.
Qed.

Lemma qs_exists_true (qs : gmap nat A) k a : qs !! k = Some a → qs_exists qs = true.
Proof.
  intros Hk. unfold qs_exists.
  destruct (map_to_list qs) eqn:E; [|done].
  apply map_to_list_empty_iff in E. by rewrite E in Hk.
Qed.

Lemma qs_exists_false (qs : gmap nat A) : qs_exists qs = false ↔ qs = ∅.
Proof.
  unfold qs_exists. rewrite <- map_to_list_empty_iff.
  by destruct (map_to_list qs).
Qed.

Lemma next_pk_fresh table : table !! next_pk table = None.
Proof. apply not_elem_of_dom, is_fresh. Qed.

End Manager_facts.

(** ** What a call of [utils.py] does, step by step *)

Create HintDb py discriminated.
#[local] Hint Unfold try_except raise ask get_world put_world query timezone_now
  random_randint uuid_uuid4 print send_mail
  EmailVerificationToken_objects_create PasswordResetToken_objects_create
  EmailVerificationToken_objects_get PasswordResetToken_objects_get
  EmailVerificationToken_save User_save related_user
  EmailVerificationToken_is_valid PasswordResetToken_is_valid
  mbind mret Py_bind Py_ret : py.

Ltac py_unfold := repeat autounfold with py in *; cbn beta iota.

Lemma verify_email_token_run token env w :
  utils.verify_email_token token env w =
  match EmailVerificationToken_lookup token w with
  | Return obj =>
      if EmailVerificationToken.valid_at (now env) obj.2 then
        let w1 :=
          set_EmailVerificationToken_objects
            (<[obj.1 := EmailVerificationToken.set_is_used true obj.2]>
               (EmailVerificationToken_objects w)) w in
        match User_objects w !! EmailVerificationToken.user obj.2 with
        | Some u =>
            let user := (EmailVerificationToken.user obj.2,
                         User.set_email_verified true u) in
            (set_User_objects (<[user.1 := user.2]> (User_objects w1)) w1,
             Return (true, "Email verified successfully!", Some user))
        | None => (w1, Raise (DoesNotExist UserModel))
        end
      else if EmailVerificationToken.is_used obj.2
      then (w, Return (false, "This verification link has already been used.", None))
      else (w, Return (false, "This verification link has expired.", None))
  | Raise (DoesNotExist EmailVerificationTokenModel) =>
      (w, Return (false, "Invalid verification token.", None))
  | Raise e => (w, Raise e)
  end.
Proof.
  unfold utils.verify_email_token. py_unfold.
  destruct (EmailVerificationToken_lookup token w) as [obj|e];
    [|by destruct e as [[]| | | | |]].
  cbn. destruct (EmailVerificationToken.valid_at (now env) obj.2); cbn.
  - by destruct (User_objects w !! _).
  - by destruct (EmailVerificationToken.is_used obj.2).
Qed.

Lemma verify_password_reset_token_run token env w :
  utils.verify_password_reset_token token env w =
  match PasswordResetToken_lookup token w with
  | Return obj =>
      if PasswordResetToken.valid_at (now env) obj.2
      then (w, Return (true, "Token is valid.", Some obj))
      else if PasswordResetToken.is_used obj.2
      then (w, Return (false, "This password reset link has already been used.", None))
      else (w, Return (false, "This password reset link has expired.", None))
  | Raise (DoesNotExist PasswordResetTokenModel) =>
      (w, Return (false, "Invalid password reset token.", None))
  | Raise e => (w, Raise e)
  end.
Proof.
  unfold utils.verify_password_reset_token. py_unfold.
  destruct (PasswordResetToken_lookup token w) as [obj|e];
    [|by destruct e as [[]| | | | |]].
  cbn. destruct (PasswordResetToken.valid_at (now env) obj.2); cbn; [done|].
  by destruct (PasswordResetToken.is_used obj.2).
Qed.

Section issue.
Context `{Django}.

Lemma send_verification_email_run user request env w :
  utils.send_verification_email user request env w =
  let pk := next_pk (EmailVerificationToken_objects w) in
  let row := issued_email_row user env in
  let w1 := set_EmailVerificationToken_objects
              (<[pk := row]> (EmailVerificationToken_objects w)) w in
  match smtp_failure env with
  | Some reason =>
      (set_stdout (stdout w ++ ["Error sending verification email: " +:+ reason]) w1,
       Raise (SMTPException reason))
  | None =>
      (set_outbox
         (outbox w ++
            [{| subject := "Your Verification Code - LearnBox";
                message := utils.verification_message
                             (User.username user.2) (issued_code env);
                from_email := DEFAULT_FROM_EMAIL;
                recipient_list := [User.email user.2];
                html_message := utils.verification_html_message
                                  (User.username user.2) (issued_code env) |}]) w1,
       Return (pk, row))
  end.
Proof.
  unfold utils.send_verification_email. py_unfold.
  by destruct (smtp_failure env).
Qed.

Lemma send_password_reset_email_run user request env w :
  ∃ mail,
  utils.send_password_reset_email user request env w =
  let pk := next_pk (PasswordResetToken_objects w) in
  let row := issued_reset_row user env in
  let w1 := set_PasswordResetToken_objects
              (<[pk := row]> (PasswordResetToken_objects w)) w in
  match smtp_failure env with
  | Some reason =>
      (set_stdout (stdout w ++ ["Error sending password reset email: " +:+ reason]) w1,
       Raise (SMTPException reason))
  | None => (set_outbox (outbox w ++ [mail]) w1, Return (pk, row))
  end.
Proof.
  unfold utils.send_password_reset_email. py_unfold.
  eexists. by destruct (smtp_failure env).
Qed.

(** C5: the code [send_verification_email] generates is a number between
    100000 and 999999 written as six decimal digits, and the token row it
    persists, under a new primary key, expires 15 minutes (900 000 000
    microseconds) after the instant of the call; the call returns that row
    when the mail is accepted. *)
Theorem C5_verification_code_six_digits_expiry_15_minutes
  (user : nat * User.t) (request : option Request) (env : Env) (w : World) :
  let n := Python.randint 100000 999999 (entropy env) in
  let code := Python.str n in
  let r := utils.send_verification_email user request env w in
  let pk := next_pk (EmailVerificationToken_objects w) in
  let row := EmailVerificationToken.mk user.1 code (token_default env)
                                       (now env + 15 * 60 * 1000000) false in
  ((100000 ≤ n ≤ 999999)%Z ∧
   String.length code = 6%nat ∧
   forallb Python.isdigit (list_ascii_of_string code) = true ∧
   Python.int code = n) ∧
  EmailVerificationToken_objects w !! pk = None ∧
  EmailVerificationToken_objects r.1
    = <[pk := row]> (EmailVerificationToken_objects w) ∧
  (EmailVerificationToken.expires_at row - now env = 15 * 60 * 1000000)%Z ∧
  match smtp_failure env with
  | None => r.2 = Return (pk, row)
  | Some reason => r.2 = Raise (SMTPException reason)
  end.
Proof.
  intros n code r pk row.
  assert (100000 ≤ n ≤ 999999)%Z as Hn by (by apply randint_range).
  split; [split; [done|by apply str_six_digits_spec]|].
  split; [apply next_pk_fresh|].
  subst r. rewrite send_verification_email_run.
  split; [|split; [cbn; lia|]]; by destruct (smtp_failure env).
Qed.

(** C6: when the mail transport fails, [send_verification_email] and
    [send_password_reset_email] raise the transport's exception to their
    caller, after printing it; the token row the call created, under a new
    primary key, is in the table all the same, and no mail went out. *)
Theorem C6_dispatch_failure_raises_and_token_stays
  (user : nat * User.t) (request : option Request) (env : Env) (w : World)
  (reason : string) :
  smtp_failure env = Some reason →
  (let r := utils.send_verification_email user request env w in
   let pk := next_pk (EmailVerificationToken_objects w) in
   r.2 = Raise (SMTPException reason) ∧
   EmailVerificationToken_objects w !! pk = None ∧
   EmailVerificationToken_objects r.1 !! pk = Some (issued_email_row user env) ∧
   stdout r.1 = stdout w ++ ["Error sending verification email: " +:+ reason] ∧
   outbox r.1 = outbox w) ∧
  (let r := utils.send_password_reset_email user request env w in
   let pk := next_pk (PasswordResetToken_objects w) in
   r.2 = Raise (SMTPException reason) ∧
   PasswordResetToken_objects w !! pk = None ∧
   PasswordResetToken_objects r.1 !! pk = Some (issued_reset_row user env) ∧
   stdout r.1 = stdout w ++ ["Error sending password reset email: " +:+ reason] ∧
   outbox r.1 = outbox w).
Proof.
  intros Hfail. split.
  - cbn zeta. rewrite send_verification_email_run, Hfail. cbn.
    split; [done|]. split; [apply next_pk_fresh|].
    split; [apply lookup_insert_eq|done].
  - destruct (send_password_reset_email_run user request env w) as [mail ->].
    cbn zeta. rewrite Hfail. cbn.
    split; [done|]. split; [apply next_pk_fresh|].
    split; [apply lookup_insert_eq|done].
Qed.

End issue.

(** At instant 0, with the transport refusing the message, issuing a code
    for alice raises and leaves the row for code 482913 in the table. *)
Lemma C6_dispatch_failure_witness :
  (@utils.send_verification_email Example.django (1%nat, Example.alice) None
     (Example.mail_down 0) Example.world0).2
  = Raise (SMTPException "Connection refused").
Proof.
  apply (@C6_dispatch_failure_raises_and_token_stays Example.django
           (1%nat, Example.alice) None (Example.mail_down 0) Example.world0
           "Connection refused").
  reflexivity.
Defined.

(** ** Validation of tokens *)

Lemma valid_at_email now r :
  EmailVerificationToken.valid_at now r = true ↔
  (now < EmailVerificationToken.expires_at r)%Z ∧
  EmailVerificationToken.is_used r = false.
Proof.
  unfold EmailVerificationToken.valid_at.
  rewrite andb_true_iff, negb_true_iff, Z.ltb_lt. tauto.
Qed.

Lemma valid_at_reset now r :
  PasswordResetToken.valid_at now r = true ↔
  (now < PasswordResetToken.expires_at r)%Z ∧
  PasswordResetToken.is_used r = false.
Proof.
  unfold PasswordResetToken.valid_at.
  rewrite andb_true_iff, negb_true_iff, Z.ltb_lt. tauto.
Qed.

(** A successful [verify_email_token] found one row, valid, and wrote it
    back used. *)
Lemma verify_email_token_success token env w w1 msg user :
  utils.verify_email_token token env w = (w1, Return (true, msg, user)) →
  ∃ obj,
    EmailVerificationToken_lookup token w = Return obj ∧
    EmailVerificationToken.valid_at (now env) obj.2 = true ∧
    EmailVerificationToken_objects w1
      = <[obj.1 := EmailVerificationToken.set_is_used true obj.2]>
          (EmailVerificationToken_objects w).
Proof.
  rewrite verify_email_token_run.
  destruct (EmailVerificationToken_lookup token w) as [obj|e] eqn:Hget.
  - destruct (EmailVerificationToken.valid_at (now env) obj.2) eqn:Hvalid.
    + cbn zeta. destruct (User_objects w !! _); intros; simplify_eq.
      by exists obj.
    + by destruct (EmailVerificationToken.is_used obj.2).
  - by destruct e as [[]| | | | |].
Qed.

(** No validation makes a used e-mail token unused again. *)
Lemma used_email_token_stays_used token env w pk r :
  EmailVerificationToken_objects w !! pk = Some r →
  EmailVerificationToken.is_used r = true →
  ∃ r', EmailVerificationToken_objects (utils.verify_email_token token env w).1 !! pk
        = Some r' ∧
        EmailVerificationToken.is_used r' = true ∧
        EmailVerificationToken.token r' = EmailVerificationToken.token r.
Proof.
  intros Hpk Hused. rewrite verify_email_token_run.
  destruct (EmailVerificationToken_lookup token w) as [obj|e] eqn:Hget.
  - destruct (EmailVerificationToken.valid_at (now env) obj.2); cbn zeta.
    + apply objects_get_lookup in Hget as [Hobj _].
      destruct (User_objects w !! _); cbn;
        (destruct (decide (obj.1 = pk)) as [<-|Hne];
         [rewrite lookup_insert_eq; eexists; split; [done|]; split; [done|];
          cbn; congruence
         |rewrite lookup_insert_ne by done; eauto]).
    + destruct (EmailVerificationToken.is_used obj.2); eauto.
  - destruct e as [[]| | | | |]; eauto.
Qed.

(** C1, as the code has it: validating an e-mail verification token twice
    gives success and then "already used", never two successes: the
    successful validation writes the row back with [is_used] set, and the
    second validation, at any instant, finds that row, answers "already
    used" and changes nothing; no later validation of any value makes a used
    token unused. [verify_password_reset_token] only checks: it never
    changes the world, so a reset token that validated once validates again
    as long as it has not expired. *)
Theorem C1_email_token_single_use_reset_token_only_checked
  (token : string) (env1 env2 : Env) (w : World) :
  (∀ w1 msg user,
     utils.verify_email_token token env1 w = (w1, Return (true, msg, user)) →
     (∃ obj,
        EmailVerificationToken_lookup token w1 = Return obj ∧
        EmailVerificationToken.is_used obj.2 = true) ∧
     utils.verify_email_token token env2 w1
     = (w1, Return (false, "This verification link has already been used.", None)))
  ∧
  (∀ token' pk r,
     EmailVerificationToken_objects w !! pk = Some r →
     EmailVerificationToken.is_used r = true →
     ∃ r', EmailVerificationToken_objects
             (utils.verify_email_token token' env1 w).1 !! pk = Some r' ∧
           EmailVerificationToken.is_used r' = true ∧
           EmailVerificationToken.token r' = EmailVerificationToken.token r)
  ∧
  (utils.verify_password_reset_token token env1 w).1 = w
  ∧
  (∀ msg obj,
     (utils.verify_password_reset_token token env1 w).2
     = Return (true, msg, Some obj) →
     (now env2 < PasswordResetToken.expires_at obj.2)%Z →
     utils.verify_password_reset_token token env2 w
     = (w, Return (true, msg, Some obj))).
Proof.
  split; [|split; [|split]].
  - intros w1 msg user (obj & Hget & _ & Hw1)%verify_email_token_success.
    assert (EmailVerificationToken_lookup token w1
            = Return (obj.1, EmailVerificationToken.set_is_used true obj.2))
      as Hget1.
    { unfold EmailVerificationToken_lookup in *. rewrite Hw1.
      apply objects_get_save; [done|].
      by apply objects_get_lookup in Hget as [_ ?]. }
    split; [by eexists|].
    by rewrite verify_email_token_run, Hget1.
  - intros token' pk r. apply used_email_token_stays_used.
  - rewrite verify_password_reset_token_run.
    destruct (PasswordResetToken_lookup token w) as [obj|e].
    + destruct (PasswordResetToken.valid_at _ _); [done|].
      by destruct (PasswordResetToken.is_used obj.2).
    + by destruct e as [[]| | | | |].
  - intros msg obj. rewrite !verify_password_reset_token_run.
    destruct (PasswordResetToken_lookup token w) as [obj'|e].
    + destruct (PasswordResetToken.valid_at (now env1) obj'.2) eqn:Hvalid.
      * intros ? Hnow; simplify_eq/=.
        apply valid_at_reset in Hvalid as [_ Hunused].
        assert (PasswordResetToken.valid_at (now env2) obj.2 = true) as ->
          by (by apply valid_at_reset).
        done.
      * by destruct (PasswordResetToken.is_used obj'.2).
    + by destruct e as [[]| | | | |].
Qed.

(** Alice's e-mail token, validated at instant 5, is refused at instant 6. *)
Lemma C1_email_token_single_use_witness :
  utils.verify_email_token "tok-e" (Example.at_ 6)
    (utils.verify_email_token "tok-e" (Example.at_ 5) Example.world1).1
  = ((utils.verify_email_token "tok-e" (Example.at_ 5) Example.world1).1,
     Return (false, "This verification link has already been used.", None)).
Proof.
  eapply (proj1 (C1_email_token_single_use_reset_token_only_checked
                   "tok-e" (Example.at_ 5) (Example.at_ 6) Example.world1)).
  vm_compute. reflexivity.
Defined.

(** C1 as the specification words it fails for the reset kind: alice's
    password-reset token validates at instant 5 and again at instant 6. *)
Lemma C1_reset_token_validates_twice :
  (utils.verify_password_reset_token "tok-r" (Example.at_ 5) Example.world1).2
  = Return (true, "Token is valid.", Some (3%nat, Example.reset_row)) ∧
  (utils.verify_password_reset_token "tok-r" (Example.at_ 6)
     (utils.verify_password_reset_token "tok-r" (Example.at_ 5) Example.world1).1).2
  = Return (true, "Token is valid.", Some (3%nat, Example.reset_row)).
Proof. split; vm_compute; reflexivity. Qed.

(** C2: a token that is used and expired is reported as "already used", not
    as "expired", for both kinds of token. *)
Theorem C2_already_used_reported_before_expired
  (token : string) (env : Env) (w : World) :
  (∀ obj,
     EmailVerificationToken_lookup token w = Return obj →
     EmailVerificationToken.is_used obj.2 = true →
     (EmailVerificationToken.expires_at obj.2 ≤ now env)%Z →
     utils.verify_email_token token env w
     = (w, Return (false, "This verification link has already been used.", None)))
  ∧
  (∀ obj,
     PasswordResetToken_lookup token w = Return obj →
     PasswordResetToken.is_used obj.2 = true →
     (PasswordResetToken.expires_at obj.2 ≤ now env)%Z →
     utils.verify_password_reset_token token env w
     = (w, Return (false, "This password reset link has already been used.", None))).
Proof.
  split; intros obj Hget Hused Hexpired.
  - rewrite verify_email_token_run, Hget.
    unfold EmailVerificationToken.valid_at. by rewrite Hused.
  - rewrite verify_password_reset_token_run, Hget.
    unfold PasswordResetToken.valid_at. by rewrite Hused.
Qed.

(** Alice's used e-mail token, presented at instant 2000, after its expiry
    at 1000. *)
Lemma C2_already_used_witness :
  utils.verify_email_token "tok-e" (Example.at_ 2000) Example.world2
  = (Example.world2,
     Return (false, "This verification link has already been used.", None)).
Proof.
  apply (proj1 (C2_already_used_reported_before_expired
                  "tok-e" (Example.at_ 2000) Example.world2)
           (7%nat, EmailVerificationToken.set_is_used true Example.email_row)).
  - vm_compute. reflexivity.
  - reflexivity.
  - vm_compute. discriminate.
Defined.

(** C3: a stored token is valid iff [now < expires_at] and it is not used.
    For a token the lookup finds, validation succeeds exactly in that case
    (for an e-mail token, the user it belongs to being in the table), and
    an unused token presented at the very instant of its expiry is reported
    as expired. *)
Theorem C3_valid_iff_unexpired_and_unused
  (token : string) (env : Env) (w : World) :
  (∀ obj u,
     EmailVerificationToken_lookup token w = Return obj →
     User_objects w !! EmailVerificationToken.user obj.2 = Some u →
     (EmailVerificationToken.valid_at (now env) obj.2 = true ↔
      (now env < EmailVerificationToken.expires_at obj.2)%Z ∧
      EmailVerificationToken.is_used obj.2 = false) ∧
     ((∃ w1 msg user,
         utils.verify_email_token token env w = (w1, Return (true, msg, user))) ↔
      (now env < EmailVerificationToken.expires_at obj.2)%Z ∧
      EmailVerificationToken.is_used obj.2 = false) ∧
     (EmailVerificationToken.is_used obj.2 = false →
      now env = EmailVerificationToken.expires_at obj.2 →
      utils.verify_email_token token env w
      = (w, Return (false, "This verification link has expired.", None))))
  ∧
  (∀ obj,
     PasswordResetToken_lookup token w = Return obj →
     (PasswordResetToken.valid_at (now env) obj.2 = true ↔
      (now env < PasswordResetToken.expires_at obj.2)%Z ∧
      PasswordResetToken.is_used obj.2 = false) ∧
     ((∃ msg r,
         utils.verify_password_reset_token token env w
         = (w, Return (true, msg, r))) ↔
      (now env < PasswordResetToken.expires_at obj.2)%Z ∧
      PasswordResetToken.is_used obj.2 = false) ∧
     (PasswordResetToken.is_used obj.2 = false →
      now env = PasswordResetToken.expires_at obj.2 →
      utils.verify_password_reset_token token env w
      = (w, Return (false, "This password reset link has expired.", None)))).
Proof.
  split.
  - intros obj u Hget Huser. split; [apply valid_at_email|].
    rewrite verify_email_token_run, Hget, Huser, <- valid_at_email.
    split; [split|].
    + intros (w1 & msg & user & Hrun).
      destruct (EmailVerificationToken.valid_at (now env) obj.2); [done|].
      by destruct (EmailVerificationToken.is_used obj.2).
    + intros ->. eauto.
    + intros Hunused Hnow. unfold EmailVerificationToken.valid_at.
      rewrite Hunused, Hnow, Z.ltb_irrefl. done.
  - intros obj Hget. split; [apply valid_at_reset|].
    rewrite verify_password_reset_token_run, Hget, <- valid_at_reset.
    split; [split|].
    + intros (msg & r & Hrun).
      destruct (PasswordResetToken.valid_at (now env) obj.2); [done|].
      by destruct (PasswordResetToken.is_used obj.2).
    + intros ->. eauto.
    + intros Hunused Hnow. unfold PasswordResetToken.valid_at.
      rewrite Hunused, Hnow, Z.ltb_irrefl. done.
Qed.

(** Alice's unused reset token, presented at instant 1000, the instant of
    its expiry. *)
Lemma C3_expired_at_the_boundary_witness :
  utils.verify_password_reset_token "tok-r" (Example.at_ 1000) Example.world1
  = (Example.world1,
     Return (false, "This password reset link has expired.", None)).
Proof.
  apply (proj2 (C3_valid_iff_unexpired_and_unused
                  "tok-r" (Example.at_ 1000) Example.world1)
           (3%nat, Example.reset_row)).
  - vm_compute. reflexivity.
  - reflexivity.
  - reflexivity.
Defined.

(** C10: in the tuple [verify_email_token] or [verify_password_reset_token]
    returns, the flag is [True] iff the third element is not [None], and a
    tuple with flag [False] carries [None] and a message that is not empty.
    The call returns such a tuple unless the lookup finds several rows (or,
    for a valid e-mail token, the row of its user is missing). *)
Theorem C10_flag_true_iff_object_returned
  (token : string) (env : Env) (w : World) :
  (∀ w1 ok msg user,
     utils.verify_email_token token env w = (w1, Return (ok, msg, user)) →
     (ok = true ↔ user ≠ None) ∧ (ok = false → user = None ∧ msg ≠ ""))
  ∧
  (∀ w1 ok msg reset_token,
     utils.verify_password_reset_token token env w
     = (w1, Return (ok, msg, reset_token)) →
     (ok = true ↔ reset_token ≠ None) ∧
     (ok = false → reset_token = None ∧ msg ≠ ""))
  ∧
  (EmailVerificationToken_lookup token w
   ≠ Raise (MultipleObjectsReturned EmailVerificationTokenModel) →
   (∀ obj, EmailVerificationToken_lookup token w = Return obj →
           is_Some (User_objects w !! EmailVerificationToken.user obj.2)) →
   ∃ w1 result, utils.verify_email_token token env w = (w1, Return result))
  ∧
  (PasswordResetToken_lookup token w
   ≠ Raise (MultipleObjectsReturned PasswordResetTokenModel) →
   ∃ result, utils.verify_password_reset_token token env w = (w, Return result)).
Proof.
  split; [|split; [|split]].
  - intros w1 ok msg user. rewrite verify_email_token_run.
    destruct (EmailVerificationToken_lookup token w) as [obj|e].
    + destruct (EmailVerificationToken.valid_at _ _); cbn zeta.
      * destruct (User_objects w !! _); intros; by simplify_eq.
      * destruct (EmailVerificationToken.is_used obj.2); intros; by simplify_eq.
    + destruct e as [[]| | | | |]; intros; by simplify_eq.
  - intros w1 ok msg reset_token. rewrite verify_password_reset_token_run.
    destruct (PasswordResetToken_lookup token w) as [obj|e].
    + destruct (PasswordResetToken.valid_at _ _); [intros; by simplify_eq|].
      destruct (PasswordResetToken.is_used obj.2); intros; by simplify_eq.
    + destruct e as [[]| | | | |]; intros; by simplify_eq.
  - intros Hmany Huser. rewrite verify_email_token_run.
    unfold EmailVerificationToken_lookup in *.
    destruct (objects_get_cases EmailVerificationTokenModel
                (λ r, String.eqb (EmailVerificationToken.token r) token)
                (EmailVerificationToken_objects w)) as [Hget|[[obj Hget]|Hget]];
      [| |done]; rewrite Hget; [eauto|].
    destruct (EmailVerificationToken.valid_at _ _); cbn zeta.
    + destruct (Huser obj Hget) as [u ->]. eauto.
    + destruct (EmailVerificationToken.is_used obj.2); eauto.
  - intros Hmany. rewrite verify_password_reset_token_run.
    unfold PasswordResetToken_lookup in *.
    destruct (objects_get_cases PasswordResetTokenModel
                (λ r, String.eqb (PasswordResetToken.token r) token)
                (PasswordResetToken_objects w)) as [Hget|[[obj Hget]|Hget]];
      [| |done]; rewrite Hget; [eauto|].
    destruct (PasswordResetToken.valid_at _ _); [eauto|].
    destruct (PasswordResetToken.is_used obj.2); eauto.
Qed.

(** A token nobody issued: the failure tuple carries [None]. *)
Lemma C10_flag_true_iff_object_returned_witness :
  (false = true ↔ (None : option (nat * User.t)) ≠ None) ∧
  (false = false →
   (None : option (nat * User.t)) = None ∧ "Invalid verification token." ≠ "").
Proof.
  apply (proj1 (C10_flag_true_iff_object_returned
                  "no-such-token" (Example.at_ 5) Example.world1)
           Example.world1).
  vm_compute. reflexivity.
Defined.

(** ** Issue, then validate *)

Section round_trip.
Context `{Django}.

Lemma objects_filter_none {A} (P : A → bool) (table : gmap nat A) :
  (∀ k r, table !! k = Some r → P r = false) → objects_filter P table = ∅.
Proof.
  intros Hnone. apply map_eq; intros k. rewrite lookup_empty.
  apply map_lookup_filter_None. right. intros r Hr HP; cbn in HP.
  by rewrite (Hnone k r Hr) in HP.
Qed.

(** The reset token round-trips: [send_password_reset_email] writes the
    identifier into the column [verify_password_reset_token] reads, so the
    identifier mailed, presented before its hour is over, is found valid. *)
Lemma reset_token_round_trip user request env env' w :
  smtp_failure env = None →
  (∀ k r, PasswordResetToken_objects w !! k = Some r →
          PasswordResetToken.token r ≠ uuid4 env) →
  (now env' < now env + Python.timedelta 1 0)%Z →
  let w1 := (utils.send_password_reset_email user request env w).1 in
  utils.verify_password_reset_token (uuid4 env) env' w1
  = (w1, Return (true, "Token is valid.",
                 Some (next_pk (PasswordResetToken_objects w),
                       issued_reset_row user env))).
Proof.
  intros Hmail Hnew Hnow.
  destruct (send_password_reset_email_run user request env w) as [mail ->].
  rewrite Hmail. cbn zeta. cbn [fst]. rewrite verify_password_reset_token_run.
  assert (PasswordResetToken_lookup (uuid4 env)
            (set_outbox (outbox w ++ [mail])
               (set_PasswordResetToken_objects
                  (<[next_pk (PasswordResetToken_objects w) := issued_reset_row user env]>
                     (PasswordResetToken_objects w)) w))
          = Return (next_pk (PasswordResetToken_objects w), issued_reset_row user env))
    as ->.
  { apply objects_get_Return; cbn [fst snd]. unfold objects_filter; cbn.
    rewrite map_filter_insert_True by apply String.eqb_refl.
    fold (objects_filter (λ r, String.eqb (PasswordResetToken.token r) (uuid4 env))
            (PasswordResetToken_objects w)).
    rewrite objects_filter_none; [by rewrite insert_empty|].
    intros k r Hr. by apply String.eqb_neq, (Hnew k). }
  cbn [snd]. unfold PasswordResetToken.valid_at; cbn.
  by apply Z.ltb_lt in Hnow as ->.
Qed.

(** The e-mail code does not: whatever the tables hold, unless a row
    happens to carry the issued code in its [token] column (the new row
    does when the default of that column is the very code), the code
    [send_verification_email] mailed is not found. *)
Lemma verification_code_not_found user request env env' w :
  token_default env ≠ issued_code env →
  (∀ k r, EmailVerificationToken_objects w !! k = Some r →
          EmailVerificationToken.token r ≠ issued_code env) →
  let w1 := (utils.send_verification_email user request env w).1 in
  utils.verify_email_token (issued_code env) env' w1
  = (w1, Return (false, "Invalid verification token.", None)).
Proof.
  intros Hdefault Hnew. rewrite send_verification_email_run. cbn zeta.
  rewrite verify_email_token_run.
  set (w1 := (match smtp_failure env with Some _ => _ | None => _ end).1).
  assert (EmailVerificationToken_lookup (issued_code env) w1
          = Raise (DoesNotExist EmailVerificationTokenModel)) as ->; [|done].
  apply objects_get_DoesNotExist, objects_filter_none.
  assert (EmailVerificationToken_objects w1
          = <[next_pk (EmailVerificationToken_objects w) := issued_email_row user env]>
              (EmailVerificationToken_objects w)) as ->
    by (subst w1; by destruct (smtp_failure env)).
  intros k r [[_ <-]|[_ Hr]]%lookup_insert_Some; apply String.eqb_neq; cbn.
  - done.
  - by apply (Hnew k).
Qed.

End round_trip.

(** C4 fails on the code: [send_verification_email] stores the code in the
    [code] column of the new row, and [verify_email_token] looks rows up by
    their [token] column. The code 482913 issued for alice at instant 0 and
    presented one microsecond later is not found, and alice is not marked
    verified. *)
Lemma C4_issued_code_is_not_found :
  ∃ w1 pk row,
    @utils.send_verification_email Example.django (1%nat, Example.alice) None
      (Example.at_ 0) Example.world0
    = (w1, Return (pk, row)) ∧
    EmailVerificationToken.code row = "482913" ∧
    EmailVerificationToken_objects w1 !! pk = Some row ∧
    utils.verify_email_token "482913" (Example.at_ 1) w1
    = (w1, Return (false, "Invalid verification token.", None)) ∧
    User.email_verified <$> User_objects w1 !! 1%nat = Some false.
Proof.
  eexists _, _, _. split; [vm_compute; reflexivity|].
  split; [reflexivity|]. split; [vm_compute; reflexivity|].
  split; vm_compute; reflexivity.
Qed.

(** ** Serializers and views *)

Lemma to_internal_value_collect fields data ret errors env w :
  Forall (λ f, read_only f data env w) fields →
  to_internal_value fields data ret errors env w
  = (w, collect (field_outcomes fields data env w) ret errors).
Proof.
  intros Hfields. revert ret errors.
  induction Hfields as [|f fields Hf _ IH]; intros ret errors; cbn.
  - unfold mret, Py_ret, raise. by destruct (decide (errors = ∅)).
  - unfold mbind, Py_bind. rewrite Hf.
    destruct (field_outcome f data env w); apply IH.
Qed.

Lemma read_only_plain name req vals data env w :
  read_only {| field_name := name; required := req; validators := vals;
               validate_method := None |} data env w.
Proof.
  unfold read_only, field_outcome, run_field; cbn.
  destruct (data !! name); [|done].
  by destruct (concat _).
Qed.

Lemma collect_keeps_error results ret errors name msgs :
  errors !! name = Some msgs → name ∉ results.*1 →
  ∃ errors', collect results ret errors = Raise (ValidationError (Fields errors')) ∧
             errors' !! name = Some msgs.
Proof.
  revert ret errors.
  induction results as [|[name' r] results IH]; intros ret errors Hname Hnotin; cbn.
  - exists errors. split; [|done].
    destruct (decide (errors = ∅)) as [->|]; [|done].
    by rewrite lookup_empty in Hname.
  - rewrite fmap_cons, not_elem_of_cons in Hnotin. destruct Hnotin as [Hne ?].
    destruct r; apply IH; try done.
    by rewrite lookup_insert_ne.
Qed.

Lemma collect_Invalid results ret errors name msgs :
  (name, Invalid msgs) ∈ results → NoDup results.*1 →
  ∃ errors', collect results ret errors = Raise (ValidationError (Fields errors')) ∧
             errors' !! name = Some msgs.
Proof.
  revert ret errors.
  induction results as [|[name' r] results IH]; intros ret errors Hin Hnodup.
  - by apply elem_of_nil in Hin.
  - rewrite fmap_cons in Hnodup. apply NoDup_cons in Hnodup as [Hnotin Hnodup].
    apply elem_of_cons in Hin as [Heq|Hin].
    + simplify_eq. cbn. apply collect_keeps_error; [apply lookup_insert_eq|done].
    + cbn. destruct r; by apply IH.
Qed.

Lemma collect_cases results ret errors :
  (∃ errors', errors' ≠ ∅ ∧
              collect results ret errors = Raise (ValidationError (Fields errors'))) ∨
  (∃ ret', collect results ret errors = Return ret').
Proof.
  revert ret errors.
  induction results as [|[name r] results IH]; intros ret errors; cbn.
  - destruct (decide (errors = ∅)); eauto.
  - destruct r; apply IH.
Qed.

Lemma collect_keeps_value results ret errors ret' name value :
  collect results ret errors = Return ret' →
  ret !! name = Some value → name ∉ results.*1 →
  ret' !! name = Some value.
Proof.
  revert ret errors.
  induction results as [|[name' r] results IH]; intros ret errors; cbn.
  - destruct (decide (errors = ∅)); intros; by simplify_eq.
  - intros Hret Hname [Hne ?]%not_elem_of_cons.
    destruct r; eapply IH; try done.
    by rewrite lookup_insert_ne.
Qed.

Lemma collect_Valid results ret errors ret' name value :
  collect results ret errors = Return ret' →
  (name, Valid value) ∈ results → NoDup results.*1 →
  ret' !! name = Some value.
Proof.
  revert ret errors.
  induction results as [|[name' r] results IH]; intros ret errors Hret Hin Hnodup.
  - by apply elem_of_nil in Hin.
  - rewrite fmap_cons in Hnodup. apply NoDup_cons in Hnodup as [Hnotin Hnodup].
    apply elem_of_cons in Hin as [Heq|Hin].
    + simplify_eq. cbn in Hret.
      eapply collect_keeps_value; [done|apply lookup_insert_eq|done].
    + cbn in Hret. destruct r; by eapply IH.
Qed.

Lemma collect_no_Invalid results ret :
  Forall (λ r, ∀ msgs, r.2 ≠ Invalid msgs) results →
  ∃ ret', collect results ret ∅ = Return ret'.
Proof.
  intros Hresults. revert ret.
  induction Hresults as [|[name r] results Hr _ IH]; intros ret; cbn.
  - eauto.
  - destruct r; [apply IH|apply IH|]. by destruct (Hr msgs).
Qed.

Section register_view.
Context `{Django}.

Lemma validate_email_run value env w :
  UserRegistrationSerializer.validate_email value env w =
  (w, if User_email_exists value w
      then Raise (ValidationError (Messages ["A user with this email already exists."]))
      else Return value).
Proof.
  unfold UserRegistrationSerializer.validate_email. py_unfold.
  by destruct (User_email_exists value w).
Qed.

Lemma read_only_email data env w :
  read_only {| field_name := "email"; required := true; validators := [];
               validate_method := Some UserRegistrationSerializer.validate_email |}
            data env w.
Proof.
  unfold read_only, field_outcome, run_field; cbn.
  destruct (data !! "email") as [value|]; [|done].
  unfold try_except, mbind, Py_bind. rewrite validate_email_run.
  by destruct (User_email_exists value w).
Qed.

Lemma registration_fields_read_only data env w :
  Forall (λ f, read_only f data env w) UserRegistrationSerializer.declared_fields.
Proof.
  unfold UserRegistrationSerializer.declared_fields.
  repeat (constructor; [first [apply read_only_plain | apply read_only_email]|]).
  constructor.
Qed.

Lemma RegisterView_post_field_errors data env w errors :
  collect (field_outcomes UserRegistrationSerializer.declared_fields data env w) ∅ ∅
  = Raise (ValidationError (Fields errors)) →
  views.RegisterView_post data env w = (w, Return (bad_request errors)).
Proof.
  intros Hcollect.
  unfold views.RegisterView_post, is_valid, run_validation,
    UserRegistrationSerializer.serializer; cbn [fields serializers.validate].
  unfold mbind, Py_bind, try_except.
  rewrite to_internal_value_collect by apply registration_fields_read_only.
  by rewrite Hcollect.
Qed.

Lemma RegisterView_post_mismatch data env w attrs password password2 :
  collect (field_outcomes UserRegistrationSerializer.declared_fields data env w) ∅ ∅
  = Return attrs →
  attrs !! "password" = Some password →
  attrs !! "password2" = Some password2 →
  password ≠ password2 →
  views.RegisterView_post data env w
  = (w, Return (bad_request {[ "password" := ["Password fields didn't match."] ]})).
Proof.
  intros Hcollect Hp Hp2 Hne.
  unfold views.RegisterView_post, is_valid, run_validation,
    UserRegistrationSerializer.serializer; cbn [fields serializers.validate].
  unfold mbind, Py_bind, try_except.
  rewrite to_internal_value_collect by apply registration_fields_read_only.
  rewrite Hcollect.
  unfold UserRegistrationSerializer.validate, getitem, mbind, Py_bind.
  rewrite Hp, Hp2. py_unfold.
  apply String.eqb_neq in Hne. by rewrite Hne.
Qed.

End register_view.

Lemma NoDup_fmap_elem {A B} (f : A → B) (l : list A) x y :
  NoDup (f <$> l) → x ∈ l → y ∈ l → f x = f y → x = y.
Proof.
  induction l as [|z l IH]; [by intros _ ?%elem_of_nil|].
  rewrite fmap_cons. intros [Hz Hl]%NoDup_cons.
  intros [->|Hx]%elem_of_cons [->|Hy]%elem_of_cons Hf; [done| | |by apply IH].
  - destruct Hz. rewrite Hf. by apply list_elem_of_fmap_2.
  - destruct Hz. rewrite <- Hf. by apply list_elem_of_fmap_2.
Qed.

Lemma unique_column_lookup {A B} `{EqDecision B} (column : A → B) table i j a b :
  unique_column column table = true →
  table !! i = Some a → table !! j = Some b → column a = column b → i = j.
Proof.
  intros Hunique%bool_decide_eq_true Hi%elem_of_map_to_list Hj%elem_of_map_to_list Hcol.
  rewrite <- list_fmap_compose in Hunique.
  by pose proof (NoDup_fmap_elem _ _ _ _ Hunique Hi Hj Hcol) as [= -> _].
Qed.

(** On a unique column, [get] finds the row that has the value. *)
Lemma unique_column_get {A B} `{EqDecision B} (column : A → B) m P table k a :
  unique_column column table = true →
  table !! k = Some a →
  (∀ b, P b = true ↔ column b = column a) →
  objects_get m P table = Return (k, a).
Proof.
  intros Hunique Hk HP. apply objects_get_Return; cbn [fst snd].
  apply map_eq; intros j. unfold objects_filter.
  destruct (decide (j = k)) as [->|Hne].
  - rewrite lookup_singleton_eq. apply map_lookup_filter_Some. split; [done|].
    by apply HP.
  - rewrite lookup_singleton_ne by done. apply map_lookup_filter_None. right.
    intros b Hb HPb; cbn in HPb. apply HP in HPb.
    by pose proof (unique_column_lookup _ _ _ _ _ _ Hunique Hb Hk HPb).
Qed.

Section registration.
Context `{Django}.

Lemma User_email_exists_lookup w k u :
  User_objects w !! k = Some u → User_email_exists (User.email u) w = true.
Proof.
  intros Hk. unfold User_email_exists. apply (qs_exists_true _ k u).
  apply map_lookup_filter_Some. split; [done|]. apply String.eqb_refl.
Qed.

Lemma registration_names data env w :
  (field_outcomes UserRegistrationSerializer.declared_fields data env w).*1
  = ["username"; "email"; "password"; "password2";
     "first_name"; "last_name"; "firebase_uid"].
Proof. reflexivity. Qed.

Lemma registration_names_NoDup data env w :
  NoDup (field_outcomes UserRegistrationSerializer.declared_fields data env w).*1.
Proof. rewrite registration_names. compute_done. Qed.

Lemma registration_outcomes data env w :
  field_outcomes UserRegistrationSerializer.declared_fields data env w =
  [ ("username",
     match data !! "username" with
     | Some value => Valid value
     | None => Invalid ["This field is required."]
     end);
    ("email",
     match data !! "email" with
     | Some value =>
         if User_email_exists value w
         then Invalid ["A user with this email already exists."]
         else Valid value
     | None => Invalid ["This field is required."]
     end);
    ("password",
     match data !! "password" with
     | Some value =>
         match validate_password value with
         | [] => Valid value
         | msgs => Invalid msgs
         end
     | None => Invalid ["This field is required."]
     end);
    ("password2",
     match data !! "password2" with
     | Some value => Valid value
     | None => Invalid ["This field is required."]
     end);
    ("first_name",
     match data !! "first_name" with Some value => Valid value | None => Skipped end);
    ("last_name",
     match data !! "last_name" with Some value => Valid value | None => Skipped end);
    ("firebase_uid",
     match data !! "firebase_uid" with Some value => Valid value | None => Skipped end) ].
Proof.
  unfold field_outcomes, UserRegistrationSerializer.declared_fields.
  cbn [fmap list_fmap field_name].
  repeat f_equal; unfold field_outcome, run_field; cbn.
  - by destruct (data !! "username").
  - destruct (data !! "email") as [value|]; [|done].
    unfold try_except, mbind, Py_bind. rewrite validate_email_run.
    by destruct (User_email_exists value w).
  - destruct (data !! "password") as [value|]; [|done].
    rewrite app_nil_r. by destruct (validate_password value).
  - by destruct (data !! "password2").
  - by destruct (data !! "first_name").
  - by destruct (data !! "last_name").
  - by destruct (data !! "firebase_uid").
Qed.



End registration.




Section login.
Context `{Django}.

Lemma truthy_Some v : truthy v = true → ∃ s, v = Some s ∧ s ≠ "".
Proof. destruct v as [[|c s]|]; [done| |done]. intros _. by eexists. Qed.

Lemma login_fields data env w address password :
  data !! "email" = Some address →
  data !! "password" = Some password →
  to_internal_value LoginSerializer.declared_fields data ∅ ∅ env w
  = (w, Return (<["password" := password]> (<["email" := address]> ∅))).
Proof.
  intros Hemail Hpassword.
  unfold LoginSerializer.declared_fields, to_internal_value, run_field; cbn.
  rewrite Hemail, Hpassword. py_unfold. by case_decide.
Qed.

(** What [LoginSerializer.validate] does with an address and a password
    that are both there and not empty. *)
Lemma LoginSerializer_validate_run attrs env w address password :
  attrs !! "email" = Some address → address ≠ "" →
  attrs !! "password" = Some password → password ≠ "" →
  LoginSerializer.validate attrs env w =
  (w,
   match User_lookup_email address w with
   | Return user =>
       match User_lookup_username (User.username user.2) w with
       | Return user' =>
           if check_password password (User.password user'.2)
              && User.is_active user'.2
           then
             if negb (User.is_active user'.2)
             then Raise (LoginSerializer.invalid "User account is disabled.")
             else Return (attrs, user')
           else Raise (LoginSerializer.invalid "Invalid email or password.")
       | Raise (DoesNotExist UserModel) =>
           Raise (LoginSerializer.invalid "Invalid email or password.")
       | Raise e => Raise e
       end
   | Raise (DoesNotExist UserModel) =>
       Raise (LoginSerializer.invalid "Invalid email or password.")
   | Raise e => Raise e
   end).
Proof.
  intros Hemail Haddress Hpassword Hnonempty.
  unfold LoginSerializer.validate, authenticate. rewrite Hemail, Hpassword.
  destruct address; [done|]. destruct password; [done|].
  cbn [truthy andb default]. py_unfold.
  destruct (User_lookup_email _ w) as [user|e];
    [|by destruct e as [[]| | | | |]].
  cbn. destruct (User_lookup_username _ w) as [user'|e];
    [|by destruct e as [[]| | | | |]].
  cbn. destruct (check_password _ _ && User.is_active user'.2); [|done].
  by destruct (negb (User.is_active user'.2)).
Qed.

(** [LoginView.post] answers 400 with the error of [validate]. *)
Lemma LoginView_post_invalid data env w address password msg :
  data !! "email" = Some address →
  data !! "password" = Some password →
  LoginSerializer.validate (<["password" := password]> (<["email" := address]> ∅)) env w
  = (w, Raise (LoginSerializer.invalid msg)) →
  views.LoginView_post data env w
  = (w, Return (bad_request {[ "error" := [msg] ]})).
Proof.
  intros Hemail Hpassword Hvalidate.
  unfold views.LoginView_post, is_valid, run_validation,
    LoginSerializer.serializer; cbn [fields serializers.validate].
  unfold try_except, mbind, Py_bind.
  rewrite (login_fields data env w address password) by done.
  by rewrite Hvalidate.
Qed.


End login.

